(** * InfluxDBWrapper: process statistics queries against InfluxDB

    A shallow embedding of [eval-lib/databases/influx/influx_db.py].

    The module holds one class, [InfluxDBWrapper], with a constructor, the
    static helper [_convert_to_nanoseconds] and the method
    [get_procstat_result].  The third-party [influxdb] client is outside the
    repository; it appears here as the interface [InfluxDB], and every
    theorem is stated for an arbitrary implementation of it.

    Modelling choices:
    - Python [int] is [Z] (unbounded), [str] is [string], a [dict] with
      string keys is a [gmap string py_value];
    - [f"{n}"] on an [int] is its decimal rendering, [pretty] on [Z]
      (the interpreter's optional cap on the number of digits it will
      render is a run-time setting and is left out);
    - [str(e)] on an exception is the message the exception carries;
    - effects are a trace of events (a query sent to the store, a line
      printed) next to an outcome (a returned value or a raised exception). *)

From Stdlib Require Import ZArith String Ascii List Floats Lia.
From stdpp Require Import base option gmap strings pretty.

Set Warnings "-inexact-float".

Open Scope Z_scope.
Open Scope string_scope.

(** ** Python values *)

(** The values a result row can hold. *)
Inductive py_value : Type :=
  | PyNone
  | PyInt (z : Z)
  | PyFloat (f : float)
  | PyStr (s : string).

Definition is_float (v : py_value) : bool :=
  match v with
  | PyFloat _ => true
  | _ => false
  end.

(** One point of a result set: a [dict] from column names to values. *)
Abbreviation Row := (gmap string py_value).

(** The shape the docstring of [get_procstat_result] describes: keys
    [max_cpu_usage] and [max_mem_usage], both holding floats. *)
Definition has_float (key : string) (r : Row) : bool :=
  match r !! key with
  | Some v => is_float v
  | None => false
  end.

Definition is_usage_summary (r : Row) : bool :=
  has_float "max_cpu_usage" r && has_float "max_mem_usage" r.

(** ** Strings *)

Definition nl : string := String (ascii_of_nat 10) EmptyString.

(** [str(n)] for an [int]. *)
Definition format_int (n : Z) : string := pretty n.


(** Python's [s in q], executable. *)
Fixpoint contains (s q : string) : bool :=
  String.prefix s q ||
  match q with
  | EmptyString => false
  | String _ q' => contains s q'
  end.

(** How often the character [c] occurs in [s]: Python's [s.count(c)]. *)
Fixpoint occurrences (c : ascii) (s : string) : nat :=
  match s with
  | EmptyString => 0
  | String d s' => (if Ascii.eqb c d then 1 else 0) + occurrences c s'
  end.

(** ** Exceptions and effects *)

(** Exception classes, split the way [except Exception] splits them:
    the three classes that derive from [BaseException] only, and
    [Exception] with all its subclasses. *)
Inductive exn_class : Type :=
  | KeyboardInterrupt
  | SystemExit
  | GeneratorExit
  | ExceptionClass (name : string).

Record py_exn : Type := PyExn {
  exn_type : exn_class;
  exn_str : string
}.

(** [isinstance(e, Exception)]. *)
Definition is_Exception (e : py_exn) : bool :=
  match exn_type e with
  | ExceptionClass _ => true
  | _ => false
  end.

Inductive outcome (A : Type) : Type :=
  | Return (a : A)
  | Raise (e : py_exn).

Arguments Return {A} a.
Arguments Raise {A} e.

Inductive event : Type :=
  | EvQuery (q : string)
  | EvPrint (line : string).

(** A computation: what it did, and how it ended. *)
Definition Py (A : Type) : Type := (list event * outcome A)%type.

Definition ret {A} (a : A) : Py A := ([], Return a).

Definition bind {A B} (m : Py A) (k : A -> Py B) : Py B :=
  match m with
  | (t, Return a) => let (t', o) := k a in ((t ++ t')%list, o)
  | (t, Raise e) => (t, Raise e)
  end.

Notation "x <- m ;; k" := (bind m (fun x => k))
  (at level 100, m at next level, right associativity).

(** [try: body / except Exception as e: handler e]. *)
Definition try_except_Exception {A} (body : Py A) (handler : py_exn -> Py A) : Py A :=
  match body with
  | (t, Return a) => (t, Return a)
  | (t, Raise e) =>
      if is_Exception e
      then let (t', o) := handler e in ((t ++ t')%list, o)
      else (t, Raise e)
  end.

Definition print (line : string) : Py unit := ([EvPrint line], Return tt).

(** The lines printed and the queries sent by a computation, in order. *)
Definition printed {A} (m : Py A) : list string :=
  omap (fun ev => match ev with EvPrint l => Some l | _ => None end) (fst m).

Definition queries_sent {A} (m : Py A) : list string :=
  omap (fun ev => match ev with EvQuery q => Some q | _ => None end) (fst m).

(** ** The store client *)

(** What the wrapper uses of the [influxdb] package: the constructor
    [InfluxDBClient], called with five positional arguments, the method
    [query] of a client and [list(result.get_points())] on what it returns.
    Either call may raise.  A call of [get_procstat_result] asks the store
    once, so one answer per query text describes the store during a call;
    a store that changes between calls is two implementations. *)
Class InfluxDB : Type := {
  Client : Type;
  ResultSet : Type;
  InfluxDBClient : string -> Z -> string -> string -> string -> Client;
  query : Client -> string -> outcome ResultSet;
  get_points : ResultSet -> outcome (list Row)
}.

(** ** The wrapper *)

Section Wrapper.
Context `{Store : InfluxDB}.

Record InfluxDBWrapper : Type := { client : Client }.

(** The keyword arguments of the constructor; [None] is an argument
    that the caller left out. *)
Record init_args : Type := {
  arg_host : option string;
  arg_port : option Z;
  arg_user : option string;
  arg_password : option string;
  arg_database : option string
}.

Definition no_args : init_args :=
  {| arg_host := None; arg_port := None; arg_user := None;
     arg_password := None; arg_database := None |}.

Definition __init__ (args : init_args) : InfluxDBWrapper :=
  let host := default "127.0.0.1" (arg_host args) in
  let port := default 8086 (arg_port args) in
  let user := default "root" (arg_user args) in
  let password := default "" (arg_password args) in
  let database := default "" (arg_database args) in
  {| client := InfluxDBClient host port user password database |}.

Definition _convert_to_nanoseconds (timestamp : Z) : Z :=
  timestamp * 1000000000.

(** The local [filter_condition] of [get_procstat_result]. *)
Definition filter_condition (process_name : string) : string :=
  "pattern = '" +:+ process_name +:+ "'".

(** The local [sql_query]: the triple-quoted f-string, line by line. *)
Definition sql_query (filter_condition : string) (start_time_ns end_time_ns : Z) : string :=
  nl +:+
  "                SELECT " +:+ nl +:+
  "                    percentile(sum_cpu_usage, 90) AS max_cpu_usage, " +:+ nl +:+
  "                    percentile(sum_memory_usage, 90) AS max_mem_usage" +:+ nl +:+
  "                FROM (" +:+ nl +:+
  "                    SELECT " +:+ nl +:+
  "                        SUM(cpu_usage) AS sum_cpu_usage, " +:+ nl +:+
  "                        SUM(memory_usage) AS sum_memory_usage " +:+ nl +:+
  "                    FROM procstat " +:+ nl +:+
  "                    WHERE " +:+ filter_condition +:+ " " +:+ nl +:+
  "                    AND time >= " +:+ format_int start_time_ns +:+ " " +:+ nl +:+
  "                    AND time <= " +:+ format_int end_time_ns +:+ " " +:+ nl +:+
  "                    GROUP BY time(10s)" +:+ nl +:+
  "                )" +:+ nl +:+
  "            ".

(** [c.query(q)]: the query goes to the store, which answers or raises. *)
Definition client_query (c : Client) (q : string) : Py ResultSet :=
  ([EvQuery q], query c q).

(** [list(result.get_points())]. *)
Definition list_get_points (result : ResultSet) : Py (list Row) :=
  ([], get_points result).

Definition get_procstat_result (self : InfluxDBWrapper)
    (process_name : string) (start_time end_time : Z) : Py (option Row) :=
  try_except_Exception
    (let start_time_ns := _convert_to_nanoseconds start_time in
     let end_time_ns := _convert_to_nanoseconds end_time in
     let filter_condition := filter_condition process_name in
     let sql_query := sql_query filter_condition start_time_ns end_time_ns in
     result <- client_query (client self) sql_query ;;
     procstat <- list_get_points result ;;
     ret (match procstat with
          | row :: _ => Some row
          | [] => None
          end))
    (fun e =>
       _ <- print ("[ERROR] Failed to query InfluxDB: " +:+ exn_str e) ;;
       ret None).

(** The query text [get_procstat_result] builds from its arguments. *)
Definition query_for (process_name : string) (start_time end_time : Z) : string :=
  sql_query (filter_condition process_name)
    (_convert_to_nanoseconds start_time) (_convert_to_nanoseconds end_time).

End Wrapper.

(** The store raises [ex] during a call: either [query] raises it, or
    [query] answers and reading the points raises it. *)
Definition store_raises `{Store : InfluxDB} (self : InfluxDBWrapper)
    (process_name : string) (start_time end_time : Z) (ex : py_exn) : Prop :=
  query (client self) (query_for process_name start_time end_time) = Raise ex
  \/ exists rs : ResultSet,
       query (client self) (query_for process_name start_time end_time) = Return rs
       /\ get_points rs = Raise ex.

(** ** A scripted store

    An implementation of [InfluxDB] that answers every query the same
    way.  A client remembers the arguments it was constructed with. *)

Record connection : Type := {
  conn_host : string;
  conn_port : Z;
  conn_user : string;
  conn_password : string;
  conn_database : string
}.

Inductive reply : Type :=
  | Rows (rows : list Row)
  | QueryRaises (e : py_exn)
  | PointsRaise (e : py_exn).

Definition scripted (r : reply) : InfluxDB := {|
  Client := connection;
  ResultSet := outcome (list Row);
  InfluxDBClient host port user password database :=
    {| conn_host := host; conn_port := port; conn_user := user;
       conn_password := password; conn_database := database |};
  query _ _ :=
    match r with
    | Rows rows => Return (Return rows)
    | QueryRaises e => Raise e
    | PointsRaise e => Return (Raise e)
    end;
  get_points rs := rs
|}.

Definition nginx_row : Row :=
  <["max_cpu_usage" := PyFloat 12.5%float]>
    (<["max_mem_usage" := PyFloat 33.1%float]> ∅).

Definition cpu_only_row : Row :=
  <["max_cpu_usage" := PyFloat 12.5%float]> ∅.



(** The wrapper under a scripted store, constructed without arguments. *)
Definition wrapper_on (r : reply) : @InfluxDBWrapper (scripted r) :=
  @__init__ (scripted r) no_args.

(** * Properties *)

(** ** Strings *)

Lemma append_cons (c : ascii) (a b : string) :
  String c a +:+ b = String c (a +:+ b).
Proof. reflexivity. Qed.

Lemma append_assoc (a b c : string) : (a +:+ b) +:+ c = a +:+ (b +:+ c).
Proof.
  induction a as [|ch a IH]; [reflexivity|].
  rewrite !append_cons. now rewrite IH.
Qed.









(** [format_int] is Python's [str] on an [int]: decimal digits, a minus
    sign for a negative number, no padding. *)
Example format_int_samples :
  format_int 0 = "0"
  /\ format_int 1000000000000 = "1000000000000"
  /\ format_int (-5000000000) = "-5000000000".
Proof. repeat split; vm_compute; reflexivity. Qed.

(** ** Runs of [get_procstat_result]

    What a call does, by what the store answers. *)

Section Runs.
Context `{Store : InfluxDB}.
Implicit Types (self : InfluxDBWrapper) (name : string) (s e : Z).
Implicit Types (ex : py_exn) (rs : ResultSet) (rows : list Row).

Ltac run_with H :=
  unfold get_procstat_result, try_except_Exception, bind, client_query,
    list_get_points, print, ret, query_for in *;
  cbv zeta; rewrite H.

Lemma run_rows self name s e rs rows :
  query (client self) (query_for name s e) = Return rs ->
  get_points rs = Return rows ->
  get_procstat_result self name s e =
    ([EvQuery (query_for name s e)], Return (head rows)).
Proof.
  intros Hq Hp. run_with Hq. rewrite Hp. now destruct rows.
Qed.

Lemma run_query_raises self name s e ex :
  query (client self) (query_for name s e) = Raise ex ->
  get_procstat_result self name s e =
    if is_Exception ex
    then ([EvQuery (query_for name s e);
           EvPrint ("[ERROR] Failed to query InfluxDB: " +:+ exn_str ex)],
          Return None)
    else ([EvQuery (query_for name s e)], Raise ex).
Proof.
  intros Hq. run_with Hq. now destruct (is_Exception ex).
Qed.

Lemma run_points_raise self name s e rs ex :
  query (client self) (query_for name s e) = Return rs ->
  get_points rs = Raise ex ->
  get_procstat_result self name s e =
    if is_Exception ex
    then ([EvQuery (query_for name s e);
           EvPrint ("[ERROR] Failed to query InfluxDB: " +:+ exn_str ex)],
          Return None)
    else ([EvQuery (query_for name s e)], Raise ex).
Proof.
  intros Hq Hp. run_with Hq. rewrite Hp. now destruct (is_Exception ex).
Qed.


Lemma run_queries_sent self name s e :
  queries_sent (get_procstat_result self name s e) = [query_for name s e].
Proof.
  destruct (query (client self) (query_for name s e)) as [rs|ex] eqn:Hq.
  - destruct (get_points rs) as [rows|ex] eqn:Hp.
    + now rewrite (run_rows _ _ _ _ _ _ Hq Hp).
    + rewrite (run_points_raise _ _ _ _ _ _ Hq Hp).
      now destruct (is_Exception ex).
  - rewrite (run_query_raises _ _ _ _ _ Hq).
    now destruct (is_Exception ex).
Qed.

End Runs.

(** ** The query text *)

Section QueryText.
Context `{Store : InfluxDB}.
Implicit Types (self : InfluxDBWrapper) (name : string) (s e : Z).




End QueryText.

(** ** Timestamps *)

(** C5: for every integer timestamp, [_convert_to_nanoseconds] gives the
    timestamp times 1_000_000_000 exactly: dividing the result by
    1_000_000_000 gives the timestamp back and leaves no remainder. *)
Theorem convert_to_nanoseconds_exact (t : Z) :
  _convert_to_nanoseconds t = t * 1000000000
  /\ _convert_to_nanoseconds t / 1000000000 = t
  /\ _convert_to_nanoseconds t mod 1000000000 = 0.
Proof.
  unfold _convert_to_nanoseconds. repeat split.
  - now apply Z.div_mul.
  - now apply Z.mod_mul.
Qed.

(** C8: the conversion keeps the order of timestamps, and keeps it
    strictly: [s <= e] gives [ns s <= ns e], and [s < e] gives
    [ns s < ns e]. *)
Theorem convert_to_nanoseconds_monotone (s e : Z) :
  s <= e ->
  _convert_to_nanoseconds s <= _convert_to_nanoseconds e
  /\ (s < e -> _convert_to_nanoseconds s < _convert_to_nanoseconds e).
Proof.
  unfold _convert_to_nanoseconds. lia.
Qed.

Lemma convert_to_nanoseconds_monotone_witness :
  1000 <= 2000
  /\ _convert_to_nanoseconds 1000 <= _convert_to_nanoseconds 2000
  /\ (1000 < 2000 -> _convert_to_nanoseconds 1000 < _convert_to_nanoseconds 2000).
Proof.
  split; [lia | apply (convert_to_nanoseconds_monotone 1000 2000); lia].
Defined.

Lemma convert_to_nanoseconds_reflects_order (s e : Z) :
  _convert_to_nanoseconds s <= _convert_to_nanoseconds e -> s <= e.
Proof.
  unfold _convert_to_nanoseconds. lia.
Qed.

(** ** Construction *)

(** C7: constructed without arguments, the wrapper builds its client as
    [InfluxDBClient("127.0.0.1", 8086, "root", "", "")], whatever the
    client library; a client that records its arguments records them as
    host, port, user, password and database in that order. *)
Theorem init_defaults :
  (forall Store : InfluxDB,
     client (__init__ no_args) = InfluxDBClient "127.0.0.1" 8086 "root" "" "")
  /\ (forall r : reply,
        @client (scripted r) (wrapper_on r) =
          {| conn_host := "127.0.0.1"; conn_port := 8086; conn_user := "root";
             conn_password := ""; conn_database := "" |}).
Proof.
  split; reflexivity.
Qed.

(** An argument that is given replaces its default and no other. *)
Lemma init_given_host `{Store : InfluxDB} (host : string) :
  client (__init__ {| arg_host := Some host; arg_port := None; arg_user := None;
                      arg_password := None; arg_database := None |}) =
    InfluxDBClient host 8086 "root" "" "".
Proof. reflexivity. Qed.

(** ** Results and failures *)

Section Results.
Context `{Store : InfluxDB}.
Implicit Types (self : InfluxDBWrapper) (name : string) (s e : Z).
Implicit Types (ex : py_exn) (rs : ResultSet) (row : Row) (rows : list Row).

(** C3: when the store answers the query with a result set that has no
    rows, [get_procstat_result] returns [None]; it raises nothing and
    prints nothing. *)
Theorem empty_result_returns_None self name s e rs :
  query (client self) (query_for name s e) = Return rs ->
  get_points rs = Return [] ->
  snd (get_procstat_result self name s e) = Return None
  /\ printed (get_procstat_result self name s e) = [].
Proof.
  intros Hq Hp. now rewrite (run_rows _ _ _ _ _ _ Hq Hp).
Qed.



(** C4, amended: when the store's result set has at least one row,
    [get_procstat_result] returns exactly its first row, unchanged, and
    raises and prints nothing; if that row has keys [max_cpu_usage] and
    [max_mem_usage] holding floats, so has the returned mapping.  The
    function does not check the row. *)
Theorem first_row_is_returned self name s e rs row rows :
  query (client self) (query_for name s e) = Return rs ->
  get_points rs = Return (row :: rows) ->
  exists returned : Row,
    snd (get_procstat_result self name s e) = Return (Some returned)
    /\ returned = row
    /\ printed (get_procstat_result self name s e) = []
    /\ (is_usage_summary row = true -> is_usage_summary returned = true).
Proof.
  intros Hq Hp. exists row. now rewrite (run_rows _ _ _ _ _ _ Hq Hp).
Qed.

End Results.

Lemma empty_result_returns_None_witness :
  @query (scripted (Rows [])) (client (wrapper_on (Rows [])))
    (query_for "nginx" 1000 2000) = Return (Return [])
  /\ snd (get_procstat_result (wrapper_on (Rows [])) "nginx" 1000 2000) = Return None
  /\ printed (get_procstat_result (wrapper_on (Rows [])) "nginx" 1000 2000) = [].
Proof.
  split; [reflexivity|].
  apply (@empty_result_returns_None (scripted (Rows []))
           (wrapper_on (Rows [])) "nginx" 1000 2000 (Return []));
    reflexivity.
Defined.



Lemma first_row_is_returned_witness :
  @query (scripted (Rows [nginx_row; cpu_only_row]))
    (client (wrapper_on (Rows [nginx_row; cpu_only_row])))
    (query_for "nginx" 1000 2000) = Return (Return [nginx_row; cpu_only_row])
  /\ exists returned : Row,
       snd (get_procstat_result (wrapper_on (Rows [nginx_row; cpu_only_row]))
              "nginx" 1000 2000) = Return (Some returned)
       /\ returned = nginx_row
       /\ printed (get_procstat_result (wrapper_on (Rows [nginx_row; cpu_only_row]))
                     "nginx" 1000 2000) = []
       /\ (is_usage_summary nginx_row = true -> is_usage_summary returned = true).
Proof.
  split; [reflexivity|].
  apply (@first_row_is_returned (scripted (Rows [nginx_row; cpu_only_row]))
           (wrapper_on (Rows [nginx_row; cpu_only_row])) "nginx" 1000 2000
           (Return [nginx_row; cpu_only_row]) nginx_row [cpu_only_row]);
    reflexivity.
Defined.

Lemma nginx_row_is_usage_summary : is_usage_summary nginx_row = true.
Proof. vm_compute. reflexivity. Qed.

(** C4 as stated fails: a store whose first row has no [max_mem_usage]
    gets that row back as the result, so the returned mapping lacks the
    key. *)
Lemma row_without_memory_is_returned :
  @query (scripted (Rows [cpu_only_row])) (client (wrapper_on (Rows [cpu_only_row])))
    (query_for "nginx" 1000 2000) = Return (Return [cpu_only_row])
  /\ snd (get_procstat_result (wrapper_on (Rows [cpu_only_row])) "nginx" 1000 2000) =
       Return (Some cpu_only_row)
  /\ cpu_only_row !! "max_mem_usage" = None
  /\ is_usage_summary cpu_only_row = false.
Proof.
  split; [reflexivity|].
  rewrite (@run_rows (scripted (Rows [cpu_only_row])) _ "nginx" 1000 2000
             (Return [cpu_only_row]) [cpu_only_row] eq_refl eq_refl).
  repeat split; vm_compute; reflexivity.
Qed.

(** ** The end-to-end scenario *)

(** C6: the call with process name [nginx] and the window 1000 to 2000
    sends one query, which contains [pattern = 'nginx'],
    [time >= 1000000000000] and [time <= 2000000000000]; when the store
    answers with the single row
    [{"max_cpu_usage": 12.5, "max_mem_usage": 33.1}], the call returns
    that mapping. *)
Theorem nginx_scenario `{Store : InfluxDB} (self : InfluxDBWrapper) :
  (exists q : string,
     queries_sent (get_procstat_result self "nginx" 1000 2000) = [q]
     /\ contains "pattern = 'nginx'" q = true
     /\ contains "time >= 1000000000000" q = true
     /\ contains "time <= 2000000000000" q = true)
  /\ (forall rs : ResultSet,
        query (client self) (query_for "nginx" 1000 2000) = Return rs ->
        get_points rs = Return [nginx_row] ->
        snd (get_procstat_result self "nginx" 1000 2000) =
          Return (Some (<["max_cpu_usage" := PyFloat 12.5%float]>
                          (<["max_mem_usage" := PyFloat 33.1%float]> ∅)))).
Proof.
  split.
  - exists (query_for "nginx" 1000 2000).
    split; [apply run_queries_sent|].
    repeat split; vm_compute; reflexivity.
  - intros rs Hq Hp. now rewrite (run_rows _ _ _ _ _ _ Hq Hp).
Qed.

Lemma nginx_scenario_witness :
  @query (scripted (Rows [nginx_row])) (client (wrapper_on (Rows [nginx_row])))
    (query_for "nginx" 1000 2000) = Return (Return [nginx_row])
  /\ snd (get_procstat_result (wrapper_on (Rows [nginx_row])) "nginx" 1000 2000) =
       Return (Some nginx_row).
Proof.
  split; [reflexivity|].
  apply (proj2 (@nginx_scenario (scripted (Rows [nginx_row]))
                  (wrapper_on (Rows [nginx_row]))) (Return [nginx_row]));
    reflexivity.
Defined.

(** ** What the query depends on *)




(** The empty name and a window whose start lies after its end go to the
    store like any other arguments, and the store's row comes back. *)
Example empty_name_reversed_window :
  get_procstat_result (wrapper_on (Rows [nginx_row])) "" 2000 1000 =
    ([EvQuery (query_for "" 2000 1000)], Return (Some nginx_row))
  /\ contains "WHERE pattern = '' " (query_for "" 2000 1000) = true
  /\ contains "AND time >= 2000000000000 " (query_for "" 2000 1000) = true
  /\ contains "AND time <= 1000000000000 " (query_for "" 2000 1000) = true.
Proof.
  repeat split; vm_compute; reflexivity.
Qed.

(** A quote in the process name reaches the query text unescaped. *)
Example quote_in_name_is_not_escaped :
  contains "WHERE pattern = 'x' OR 'a'='a' " (query_for "x' OR 'a'='a" 0 1) = true.
Proof. vm_compute. reflexivity. Qed.

(** A negative timestamp is rendered with its sign. *)
Example negative_timestamp :
  contains "AND time >= -5000000000 " (query_for "nginx" (-5) 0) = true.
Proof. vm_compute. reflexivity. Qed.

(** * Further properties *)

(** ** Characters of the query text *)



















(** A name without a quote gives a query with exactly the two delimiting
    quotes; a name with two quotes gives four. *)
Example quotes_of_two_names :
  occurrences "'" (query_for "nginx" 1000 2000) = 2%nat
  /\ occurrences "'" (query_for "x' OR pattern != 'x" 1000 2000) = 4%nat.
Proof. split; vm_compute; reflexivity. Qed.

(** ** Timestamps, continued *)

(** X7: the conversion to nanoseconds reflects the order of timestamps
    and is injective, and the length of a window in nanoseconds is the
    conversion of its length in seconds. *)
Theorem convert_to_nanoseconds_order_embedding (s e : Z) :
  (_convert_to_nanoseconds s <= _convert_to_nanoseconds e <-> s <= e)
  /\ (_convert_to_nanoseconds s = _convert_to_nanoseconds e <-> s = e)
  /\ _convert_to_nanoseconds e - _convert_to_nanoseconds s =
       _convert_to_nanoseconds (e - s).
Proof.
  unfold _convert_to_nanoseconds. lia.
Qed.

(** The digits already produced stay behind the ones to come. *)
Lemma pretty_N_go_acc (digits : string) (x : N) :
  pretty_N_go x "" +:+ digits = pretty_N_go x digits.
Proof.
  revert digits. induction (N.lt_wf_0 x) as [x _ IH]; intros digits.
  assert (x = 0 \/ 0 < x)%N as [->|Hx] by lia.
  - now rewrite !pretty_N_go_0.
  - rewrite (pretty_N_go_step x digits), (pretty_N_go_step x "") by exact Hx.
    pose proof (IH (N.div x 10) (N.div_lt x 10 Hx eq_refl)) as Hdiv.
    rewrite <- (Hdiv (String (pretty_N_char (N.modulo x 10)) digits)).
    rewrite <- (Hdiv (String (pretty_N_char (N.modulo x 10)) "")).
    now rewrite append_assoc.
Qed.

Lemma pretty_N_go_times_10 (x : N) (s : string) :
  (0 < x)%N -> pretty_N_go (10 * x) s = pretty_N_go x (String "0" s).
Proof.
  intros Hx. rewrite pretty_N_go_step by lia.
  replace (N.div (10 * x) 10) with x
    by (symmetry; rewrite N.mul_comm; now apply N.div_mul).
  replace (N.modulo (10 * x) 10) with 0%N
    by (symmetry; rewrite N.mul_comm; now apply N.Div0.mod_mul).
  reflexivity.
Qed.

Lemma pretty_N_giga (x : N) :
  (0 < x)%N -> pretty (x * 1000000000)%N = pretty x +:+ "000000000".
Proof.
  intros Hx. unfold pretty, pretty_N.
  destruct (decide (x * 1000000000 = 0)%N); [lia|].
  destruct (decide (x = 0)%N); [lia|].
  replace (x * 1000000000)%N
    with (10 * (10 * (10 * (10 * (10 * (10 * (10 * (10 * (10 * x)))))))))%N by lia.
  rewrite !pretty_N_go_times_10 by lia.
  symmetry. apply pretty_N_go_acc.
Qed.

(** X8: in the query text a timestamp other than 0 appears as its
    decimal rendering in seconds, sign included, followed by nine zeros;
    the timestamp 0 appears as [0]. *)
Theorem nanoseconds_text_is_seconds_and_nine_zeros (t : Z) :
  t <> 0 ->
  format_int (_convert_to_nanoseconds t) = format_int t +:+ "000000000".
Proof.
  intros Ht. unfold format_int, _convert_to_nanoseconds.
  destruct t as [|p|p]; [contradiction| |].
  - change (pretty (N.pos (p * 1000000000)) = pretty (N.pos p) +:+ "000000000").
    rewrite <- (pretty_N_giga (N.pos p)) by lia. reflexivity.
  - change ("-" +:+ pretty (N.pos (p * 1000000000)) =
            ("-" +:+ pretty (N.pos p)) +:+ "000000000").
    rewrite append_assoc, <- (pretty_N_giga (N.pos p)) by lia. reflexivity.
Qed.

Lemma nanoseconds_text_is_seconds_and_nine_zeros_witness :
  -5 <> 0
  /\ format_int (_convert_to_nanoseconds (-5)) = format_int (-5) +:+ "000000000".
Proof.
  split; [discriminate|].
  apply (nanoseconds_text_is_seconds_and_nine_zeros (-5)). discriminate.
Defined.

Example nanoseconds_text_of_zero : format_int (_convert_to_nanoseconds 0) = "0".
Proof. reflexivity. Qed.

(** ** What the outcome of a call tells about the store *)

Section Outcomes.
Context `{Store : InfluxDB}.
Implicit Types (self : InfluxDBWrapper) (name : string) (s e : Z).
Implicit Types (ex : py_exn) (rs : ResultSet) (row : Row) (rows : list Row).

(** The four ways a call can go. *)
Lemma run_cases self name s e :
  (exists rs row rows,
     query (client self) (query_for name s e) = Return rs
     /\ get_points rs = Return (row :: rows)
     /\ get_procstat_result self name s e =
          ([EvQuery (query_for name s e)], Return (Some row)))
  \/ (exists rs,
        query (client self) (query_for name s e) = Return rs
        /\ get_points rs = Return []
        /\ get_procstat_result self name s e =
             ([EvQuery (query_for name s e)], Return None))
  \/ (exists ex,
        store_raises self name s e ex /\ is_Exception ex = true
        /\ get_procstat_result self name s e =
             ([EvQuery (query_for name s e);
               EvPrint ("[ERROR] Failed to query InfluxDB: " +:+ exn_str ex)],
              Return None))
  \/ (exists ex,
        store_raises self name s e ex /\ is_Exception ex = false
        /\ get_procstat_result self name s e =
             ([EvQuery (query_for name s e)], Raise ex)).
Proof.
  unfold store_raises.
  destruct (query (client self) (query_for name s e)) as [rs|ex] eqn:Hq.
  - destruct (get_points rs) as [[|row rows]|ex] eqn:Hp.
    + right; left. exists rs. now rewrite (run_rows _ _ _ _ _ _ Hq Hp).
    + left. exists rs, row, rows. now rewrite (run_rows _ _ _ _ _ _ Hq Hp).
    + rewrite (run_points_raise _ _ _ _ _ _ Hq Hp).
      destruct (is_Exception ex) eqn:Hex; [right; right; left | right; right; right];
        exists ex; eauto 6.
  - rewrite (run_query_raises _ _ _ _ _ Hq).
    destruct (is_Exception ex) eqn:Hex; [right; right; left | right; right; right];
      exists ex; eauto.
Qed.

Ltac by_cases self name s e :=
  destruct (run_cases self name s e)
    as [(rs0 & row0 & rows0 & Hq0 & Hp0 & Hrun)
       |[(rs0 & Hq0 & Hp0 & Hrun)
       |[(ex0 & Hst0 & Hex0 & Hrun)
        |(ex0 & Hst0 & Hex0 & Hrun)]]];
  rewrite Hrun in *; simpl in *.


(** X1: a row that the call returns is the first row of a result set that
    the store gave for the query built from the arguments; the function
    never makes a row up. *)
Theorem returned_row_comes_from_store self name s e row :
  snd (get_procstat_result self name s e) = Return (Some row) ->
  exists rs rows,
    query (client self) (query_for name s e) = Return rs
    /\ get_points rs = Return (row :: rows).
Proof.
  by_cases self name s e; intros H; try discriminate.
  injection H as <-. eauto.
Qed.

(** X2: when the call returns [None] and has printed nothing, the store
    answered the query with a result set without rows: silence tells
    "no data" from a failure. *)
Theorem silent_None_means_no_rows self name s e :
  snd (get_procstat_result self name s e) = Return None ->
  printed (get_procstat_result self name s e) = [] ->
  exists rs,
    query (client self) (query_for name s e) = Return rs
    /\ get_points rs = Return [].
Proof.
  by_cases self name s e; intros H Hpr; try discriminate. eauto.
Qed.



End Outcomes.

Lemma returned_row_comes_from_store_witness :
  snd (get_procstat_result (wrapper_on (Rows [nginx_row; cpu_only_row]))
         "nginx" 1000 2000) = Return (Some nginx_row)
  /\ exists rs rows,
       @query (scripted (Rows [nginx_row; cpu_only_row]))
         (client (wrapper_on (Rows [nginx_row; cpu_only_row])))
         (query_for "nginx" 1000 2000) = Return rs
       /\ @get_points (scripted (Rows [nginx_row; cpu_only_row])) rs =
            Return (nginx_row :: rows).
Proof.
  split; [vm_compute; reflexivity|].
  apply (@returned_row_comes_from_store (scripted (Rows [nginx_row; cpu_only_row]))
           (wrapper_on (Rows [nginx_row; cpu_only_row])) "nginx" 1000 2000 nginx_row).
  vm_compute; reflexivity.
Defined.

Lemma silent_None_means_no_rows_witness :
  snd (get_procstat_result (wrapper_on (Rows [])) "nginx" 1000 2000) = Return None
  /\ printed (get_procstat_result (wrapper_on (Rows [])) "nginx" 1000 2000) = []
  /\ exists rs,
       @query (scripted (Rows [])) (client (wrapper_on (Rows [])))
         (query_for "nginx" 1000 2000) = Return rs
       /\ @get_points (scripted (Rows [])) rs = Return [].
Proof.
  split; [vm_compute; reflexivity|]. split; [vm_compute; reflexivity|].
  apply (@silent_None_means_no_rows (scripted (Rows []))
           (wrapper_on (Rows [])) "nginx" 1000 2000);
    vm_compute; reflexivity.
Defined.


